(** * line-message-forwarder: a shallow embedding of [app.py]

    The bot receives LINE webhook events, keeps the text messages of one
    source group that match a keyword filter, and forwards them to a target
    group, confirming in the source group.  This file embeds [app.py] in
    Rocq: Python strings are lists of Unicode code points, exceptions are an
    explicit result type, and the calls to the LINE platform and to the
    logger are recorded in a chronological list of effects. *)

From Stdlib Require Import List String Ascii NArith Bool Lia.
Import ListNotations.
Local Open Scope N_scope.
Local Open Scope list_scope.

(* ================================================================== *)
(** * The Python values and built-ins the program uses *)

Module Py.

(** A Python [str] is a sequence of Unicode code points. *)
Definition char := N.
Definition str := list char.

(** ** Reading the literals of [app.py]

    [app.py] is a UTF-8 file.  [u] reads a literal the way Python does: it
    decodes the UTF-8 bytes into code points and turns the escape
    backslash-n into a line feed (no other escape occurs in [app.py]). *)

Definition cont (b : N) : N := N.land b 63.

Fixpoint utf8_decode (bs : list N) : str :=
  match bs with
  | [] => []
  | b0 :: r0 =>
    if b0 <? 128 then b0 :: utf8_decode r0
    else if b0 <? 224 then
      match r0 with
      | b1 :: r1 => (N.land b0 31 * 64 + cont b1) :: utf8_decode r1
      | _ => [b0]
      end
    else if b0 <? 240 then
      match r0 with
      | b1 :: b2 :: r2 =>
        (N.land b0 15 * 4096 + cont b1 * 64 + cont b2) :: utf8_decode r2
      | _ => [b0]
      end
    else
      match r0 with
      | b1 :: b2 :: b3 :: r3 =>
        (N.land b0 7 * 262144 + cont b1 * 4096 + cont b2 * 64 + cont b3)
          :: utf8_decode r3
      | _ => [b0]
      end
  end.

Fixpoint unescape (s : str) : str :=
  match s with
  | 92 :: 110 :: r => 10 :: unescape r
  | c :: r => c :: unescape r
  | [] => []
  end.

Definition u (literal : string) : str :=
  unescape (utf8_decode (map N_of_ascii (list_ascii_of_string literal))).

(** ** Comparison, [startswith], [in] *)

Fixpoint str_eqb (a b : str) : bool :=
  match a, b with
  | [], [] => true
  | x :: a', y :: b' => (x =? y) && str_eqb a' b'
  | _, _ => false
  end.

(** [s.startswith(prefix)] *)
Fixpoint startswith (s prefix : str) {struct prefix} : bool :=
  match prefix with
  | [] => true
  | p :: prefix' =>
    match s with
    | [] => false
    | c :: s' => (c =? p) && startswith s' prefix'
    end
  end.

(** [sub in s]: [sub] occurs in [s] as a contiguous run of code points. *)
Fixpoint contains (sub s : str) : bool :=
  startswith s sub ||
  match s with
  | [] => false
  | _ :: s' => contains sub s'
  end.

(** ** [str.lower]

    [str.lower] is CPython's Unicode lower-casing; its tables are not part
    of the program, so the embedding of [app.py] takes it as a parameter.
    What the examples need of it is its value on plain strings: strings of
    ASCII code points and of code points of the caseless CJK blocks the
    keywords are written in (CJK Symbols and Punctuation U+3000..U+303F, CJK
    Unified Ideographs U+4E00..U+9FFF, and the fullwidth colon U+FF1A).  On
    those [str.lower] lower-cases the ASCII letters and changes nothing
    else. *)

Definition ascii_lower (c : char) : char :=
  if (65 <=? c) && (c <=? 90) then c + 32 else c.

Definition plain (c : char) : bool :=
  (c <? 128)
  || ((12288 <=? c) && (c <=? 12351))
  || ((19968 <=? c) && (c <=? 40959))
  || (c =? 65306).

Definition lower_plain (s : str) : str := map ascii_lower s.

Definition lower_spec (lower : str -> str) : Prop :=
  forall s, forallb plain s = true -> lower s = lower_plain s.

(** ** Exceptions

    An exception is its class and its message ([str(e)]).  Only subclasses
    of [Exception] are modelled, the ones an [except Exception] catches. *)

Inductive exn_class :=
| InvalidSignatureError
| AttributeError
| KeyError
| TypeError
| ValueError
| IndexError
| ApiException
| OtherException.

Record exn := Exn { exn_type : exn_class; exn_str : str }.

Inductive result (A : Type) : Type :=
| Ok (a : A)
| Raise (e : exn).

Arguments Ok {A} a.
Arguments Raise {A} e.

Definition is_InvalidSignatureError (e : exn) : bool :=
  match exn_type e with InvalidSignatureError => true | _ => false end.

(** ** [repr] of a [str], dictionaries with [str] keys, and [str.format]

    [repr(s)] puts [s] between single quotes, or between double quotes when
    [s] holds a single quote and no double quote; it escapes the backslash
    and the chosen quote, writes tab, line feed and carriage return as
    backslash-t, backslash-n and backslash-r, and writes the other ASCII
    control characters in hexadecimal.  The embedding is exact on ASCII; a
    code point above 127 is kept as it is, which is what CPython does for
    the printable ones. *)

Definition hex_digit (n : N) : char :=
  if n <? 10 then 48 + n else 87 + n.

Definition repr_char (quote c : char) : str :=
  if (c =? quote) || (c =? 92) then [92; c]
  else if c =? 9 then [92; 116]
  else if c =? 10 then [92; 110]
  else if c =? 13 then [92; 114]
  else if (c <? 32) || (c =? 127)
       then [92; 120; hex_digit (c / 16); hex_digit (c mod 16)]
  else [c].

Definition repr (s : str) : str :=
  let quote :=
    if existsb (N.eqb 39) s && negb (existsb (N.eqb 34) s) then 34 else 39 in
  quote :: flat_map (repr_char quote) s ++ [quote].

Definition is_ascii (s : str) : bool := forallb (fun c => c <? 128) s.

(** A dict literal keeps its items in order; [d[k]] raises [KeyError] on a
    missing key, and the message of a [KeyError] is the [repr] of the key. *)

Fixpoint dict_get (d : list (str * str)) (k : str) : result str :=
  match d with
  | [] => Raise (Exn KeyError (repr k))
  | (k', v) :: d' => if str_eqb k' k then Ok v else dict_get d' k
  end.

Definition prepend (v : str) (r : result str) : result str :=
  match r with
  | Ok s => Ok (v ++ s)
  | Raise e => Raise e
  end.

Definition is_digits (s : str) : bool :=
  forallb (fun c => (48 <=? c) && (c <=? 57)) s.

(** The decimal digits of a position without its leading zeros. *)
Fixpoint strip_zeros (digits : str) : str :=
  match digits with
  | c :: r =>
    if (c =? 48) && negb (match r with [] => true | _ => false end)
    then strip_zeros r
    else digits
  | [] => []
  end.

(** [template.format(k1=v1, ...)], called with keyword arguments only.  A
    doubled brace is a literal brace; the text between a single opening
    brace and the next closing one names the argument to insert, and the
    value is inserted as it is (it is not scanned again).  A name is looked
    up among the keyword arguments; an empty name or a name of ASCII digits
    is a position, and with no positional argument every position is out of
    range.  [field] is [None] in literal text and holds the part of the name
    read so far inside a replacement field.

    The fragment covered is the one [app.py] uses, fields that are plain
    names.  Conversions, format specifications, attribute and index lookups
    (an exclamation mark, a colon, a dot or a bracket inside a field) are
    outside it: the embedding reads them as part of the name. *)
Fixpoint format_from (kwargs : list (str * str)) (template : str)
    (field : option str) : result str :=
  match template with
  | [] =>
    match field with
    | None => Ok []
    | Some _ => Raise (Exn ValueError (u "expected '}' before end of string"))
    end
  | c :: r =>
    match field with
    | None =>
      if c =? 123 then
        match r with
        | 123 :: r' => prepend [123] (format_from kwargs r' None)
        | [] =>
          Raise (Exn ValueError (u "Single '{' encountered in format string"))
        | _ => format_from kwargs r (Some [])
        end
      else if c =? 125 then
        match r with
        | 125 :: r' => prepend [125] (format_from kwargs r' None)
        | _ => Raise (Exn ValueError (u "Single '}' encountered in format string"))
        end
      else prepend [c] (format_from kwargs r None)
    | Some name =>
      if c =? 125 then
        if is_digits name then
          Raise (Exn IndexError
                   (u "Replacement index "
                    ++ match name with [] => [48] | _ => strip_zeros name end
                    ++ u " out of range for positional args tuple"))
        else
          match dict_get kwargs name with
          | Ok v => prepend v (format_from kwargs r None)
          | Raise e => Raise e
          end
      else if c =? 123 then
        Raise (Exn ValueError (u "unexpected '{' in field name"))
      else format_from kwargs r (Some (name ++ [c]))
    end
  end.

Definition format (template : str) (kwargs : list (str * str)) : result str :=
  format_from kwargs template None.

End Py.

Export Py.

(* ================================================================== *)
(** * The LINE SDK's data, as [app.py] uses it

    The SDK ([linebot.v3]) is a library, not a file of the program.  Its
    classes are embedded with the attributes [app.py] reads; attributes that
    the SDK declares optional, and the identifiers that come from the
    environment, are [option str] ([None] is Python's [None]). *)

(** [event.source]: where the message was sent. *)
Inductive Source :=
| UserSource (user_id : option str)
| GroupSource (group_id : str) (user_id : option str)
| RoomSource (room_id : str) (user_id : option str).

Definition source_type (s : Source) : str :=
  match s with
  | UserSource _ => u "user"
  | GroupSource _ _ => u "group"
  | RoomSource _ _ => u "room"
  end.

(** [source.group_id]: only a group source has the attribute. *)
Definition source_group_id (s : Source) : result str :=
  match s with
  | GroupSource g _ => Ok g
  | UserSource _ =>
    Raise (Exn AttributeError (u "'UserSource' object has no attribute 'group_id'"))
  | RoomSource _ _ =>
    Raise (Exn AttributeError (u "'RoomSource' object has no attribute 'group_id'"))
  end.

Definition source_user_id (s : Source) : option str :=
  match s with
  | UserSource uid | GroupSource _ uid | RoomSource _ uid => uid
  end.

(** [event.message]: a text, or a content of another class (image, video,
    audio, file, location, sticker), known by the name of its class. *)
Inductive MessageContent :=
| TextMessageContent (text : str)
| OtherMessageContent (class_name : str).

(** [message.text]: only a text content has the attribute. *)
Definition content_text (m : MessageContent) : result str :=
  match m with
  | TextMessageContent t => Ok t
  | OtherMessageContent class_name =>
    Raise (Exn AttributeError
             (u "'" ++ class_name ++ u "' object has no attribute 'text'"))
  end.

Record MessageEvent := {
  source : Source;
  reply_token : option str;
  message : MessageContent
}.

(** A webhook event: a message event, or one of the other kinds (follow,
    join, postback, ...), of which the program reads nothing. *)
Inductive Event :=
| AMessageEvent (e : MessageEvent)
| OtherEvent.

Record GroupSummaryResponse := { group_name : str }.
Record GroupMemberCountResponse := { count : N }.
Record GroupUserProfileResponse := { display_name : str }.
Record TextMessage := { text : str }.
Record PushMessageRequest := { to : option str; messages : list TextMessage }.
Record ReplyMessageRequest := {
  reply_to : option str;
  reply_messages : list TextMessage
}.

(** The two request classes check their fields when an object is built: the
    receiver of a push and the token of a reply are required strings, and
    the constructor raises a validation error (a [ValueError]) when given
    [None].  The text of the error is abridged to its first line. *)
Definition PushMessageRequest__init__ (to : option str)
    (messages : list TextMessage) : result PushMessageRequest :=
  match to with
  | Some _ => Ok {| to := to; messages := messages |}
  | None =>
    Raise (Exn ValueError (u "1 validation error for PushMessageRequest"))
  end.

Definition ReplyMessageRequest__init__ (reply_token : option str)
    (messages : list TextMessage) : result ReplyMessageRequest :=
  match reply_token with
  | Some _ => Ok {| reply_to := reply_token; reply_messages := messages |}
  | None =>
    Raise (Exn ValueError (u "1 validation error for ReplyMessageRequest"))
  end.

Record Configuration := { access_token : option str }.
Record WebhookHandler := { channel_secret : option str }.

(** ** Effects

    A [Call] is the program reaching one of the five entry points of
    [MessagingApi] with the given arguments.  What happens behind the entry
    point (the SDK's validation of the arguments, the HTTP request, the
    platform) is the [Platform]: it decides how each call ends, from the
    calls made before it.  An [Effect] is a call with how it ended, or one
    record handed to the logger. *)

Inductive Call :=
| GetGroupSummary (group_id : option str)
| GetGroupMemberCount (group_id : option str)
| GetGroupMemberProfile (group_id user_id : option str)
| PushMessage (request : PushMessageRequest)
| ReplyMessage (request : ReplyMessageRequest).

(** What a call returns when it does not raise. *)
Definition returns (c : Call) : Type :=
  match c with
  | GetGroupSummary _ => GroupSummaryResponse
  | GetGroupMemberCount _ => GroupMemberCountResponse
  | GetGroupMemberProfile _ _ => GroupUserProfileResponse
  | PushMessage _ => unit
  | ReplyMessage _ => unit
  end.

Record Platform := {
  answer_group_summary :
    list Call -> option str -> result GroupSummaryResponse;
  answer_group_member_count :
    list Call -> option str -> result GroupMemberCountResponse;
  answer_group_member_profile :
    list Call -> option str -> option str -> result GroupUserProfileResponse;
  answer_push : list Call -> PushMessageRequest -> result unit;
  answer_reply : list Call -> ReplyMessageRequest -> result unit
}.

(** The platform as reached by a client with a given configuration. *)
Definition Network : Type := Configuration -> Platform.

Definition answer (p : Platform) (before : list Call) (c : Call)
    : result (returns c) :=
  match c with
  | GetGroupSummary g => answer_group_summary p before g
  | GetGroupMemberCount g => answer_group_member_count p before g
  | GetGroupMemberProfile g m => answer_group_member_profile p before g m
  | PushMessage request => answer_push p before request
  | ReplyMessage request => answer_reply p before request
  end.

(** Two outcomes that agree on whether the call raised, and on what. *)
Definition same_ending {A} (r1 r2 : result A) : Prop :=
  match r1, r2 with
  | Ok _, Ok _ => True
  | Raise e1, Raise e2 => e1 = e2
  | _, _ => False
  end.

(** Two platforms that differ at most in the member counts they return. *)
Definition differ_in_counts_only (p1 p2 : Platform) : Prop :=
  (forall h g, answer_group_summary p1 h g = answer_group_summary p2 h g) /\
  (forall h g, same_ending (answer_group_member_count p1 h g)
                           (answer_group_member_count p2 h g)) /\
  (forall h g m, answer_group_member_profile p1 h g m
                 = answer_group_member_profile p2 h g m) /\
  (forall h r, answer_push p1 h r = answer_push p2 h r) /\
  (forall h r, answer_reply p1 h r = answer_reply p2 h r).

(** A platform that answers a retrieval or a push the same way whatever was
    called before.  Replies are left free: a reply token is for one use. *)
Definition answers_again (p : Platform) : Prop :=
  (forall h1 h2 g, answer_group_summary p h1 g = answer_group_summary p h2 g) /\
  (forall h1 h2 g, answer_group_member_count p h1 g
                   = answer_group_member_count p h2 g) /\
  (forall h1 h2 g m, answer_group_member_profile p h1 g m
                     = answer_group_member_profile p h2 g m) /\
  (forall h1 h2 r, answer_push p h1 r = answer_push p h2 r).

Inductive Response :=
| SummaryOf (r : GroupSummaryResponse)
| CountOf (r : GroupMemberCountResponse)
| ProfileOf (r : GroupUserProfileResponse)
| Sent.

Definition response (c : Call) : returns c -> Response :=
  match c with
  | GetGroupSummary _ => SummaryOf
  | GetGroupMemberCount _ => CountOf
  | GetGroupMemberProfile _ _ => ProfileOf
  | PushMessage _ => fun _ => Sent
  | ReplyMessage _ => fun _ => Sent
  end.

Definition outcome (c : Call) (r : result (returns c)) : result Response :=
  match r with
  | Ok a => Ok (response c a)
  | Raise e => Raise e
  end.

Inductive level := DEBUG | INFO | ERROR.

Inductive Effect :=
| Api (call : Call) (ended : result Response)
| Log (lvl : level) (msg : str).

Definition calls (trace : list Effect) : list Call :=
  flat_map (fun ef => match ef with Api c _ => [c] | Log _ _ => [] end) trace.

Definition is_delivery (c : Call) : bool :=
  match c with
  | PushMessage _ | ReplyMessage _ => true
  | _ => false
  end.

(** The delivery calls (push and reply) of a trace, in order. *)
Definition deliveries (trace : list Effect) : list Call :=
  filter is_delivery (calls trace).

(** A metadata retrieval (group summary, member count, member profile)
    that raised. *)
Definition failed_retrieval (ef : Effect) : bool :=
  match ef with
  | Api c (Raise _) => negb (is_delivery c)
  | _ => false
  end.

(** A push that raised. *)
Definition failed_push (ef : Effect) : bool :=
  match ef with
  | Api (PushMessage _) (Raise _) => true
  | _ => false
  end.

(** ** The monad of the program's statements

    A statement is a tree: it returns, raises, calls the platform through a
    client and goes on with what the call returned or raised, or hands a
    record to the logger and goes on. *)

Inductive M (A : Type) : Type :=
| Ret (a : A)
| Throw (e : exn)
| Perform (client : Configuration) (c : Call) (k : result (returns c) -> M A)
| Write (lvl : level) (msg : str) (k : M A).

Arguments Ret {A} a.
Arguments Throw {A} e.
Arguments Perform {A} client c k.
Arguments Write {A} lvl msg k.

Definition ret {A} (a : A) : M A := Ret a.

Definition raise {A} (e : exn) : M A := Throw e.

Fixpoint bind {A B} (m : M A) (f : A -> M B) : M B :=
  match m with
  | Ret a => f a
  | Throw e => Throw e
  | Perform client c k => Perform client c (fun r => bind (k r) f)
  | Write lvl msg k => Write lvl msg (bind k f)
  end.

(** [try: m except Exception as e: handler e] *)
Fixpoint try_except {A} (m : M A) (handler : exn -> M A) : M A :=
  match m with
  | Ret a => Ret a
  | Throw e => handler e
  | Perform client c k => Perform client c (fun r => try_except (k r) handler)
  | Write lvl msg k => Write lvl msg (try_except k handler)
  end.

(** An attribute access or a pure call that may raise. *)
Definition lift {A} (r : result A) : M A :=
  match r with
  | Ok a => Ret a
  | Raise e => Throw e
  end.

Definition logger (lvl : level) (msg : str) : M unit := Write lvl msg (Ret tt).

Definition perform (client : Configuration) (c : Call) : M (returns c) :=
  Perform client c lift.

Notation "x <- m ;; k" := (bind m (fun x => k))
  (at level 61, m at next level, right associativity).
Notation "m ;;; k" := (bind m (fun _ => k))
  (at level 61, right associativity).

(** Running a statement on a network, after the calls in [before]: its
    value or exception, and the effects it performed, in order. *)
Fixpoint run {A} (net : Network) (m : M A) (before : list Call)
    : result A * list Effect :=
  match m with
  | Ret a => (Ok a, [])
  | Throw e => (Raise e, [])
  | Perform client c k =>
    let r := answer (net client) before c in
    let (x, out) := run net (k r) (before ++ [c]) in
    (x, Api c (outcome c r) :: out)
  | Write lvl msg k =>
    let (x, out) := run net k before in
    (x, Log lvl msg :: out)
  end.

(** [ApiClient(configuration)] and [MessagingApi(api_client)], with the five
    methods of [MessagingApi] the program calls. *)
Record ApiClient := { client_configuration : Configuration }.
Record MessagingApi := { api_client : ApiClient }.

Definition get_group_summary (self : MessagingApi) (group_id : option str)
    : M GroupSummaryResponse :=
  perform (client_configuration (api_client self)) (GetGroupSummary group_id).

Definition get_group_member_count (self : MessagingApi)
    (group_id : option str) : M GroupMemberCountResponse :=
  perform (client_configuration (api_client self))
          (GetGroupMemberCount group_id).

Definition get_group_member_profile (self : MessagingApi)
    (group_id user_id : option str) : M GroupUserProfileResponse :=
  perform (client_configuration (api_client self))
          (GetGroupMemberProfile group_id user_id).

Definition push_message (self : MessagingApi) (request : PushMessageRequest)
    : M unit :=
  perform (client_configuration (api_client self)) (PushMessage request).

Definition reply_message_with_http_info (self : MessagingApi)
    (request : ReplyMessageRequest) : M unit :=
  perform (client_configuration (api_client self)) (ReplyMessage request).

(** [a == b] on values that are a [str] or [None]. *)
Definition optstr_eqb (a b : option str) : bool :=
  match a, b with
  | Some x, Some y => str_eqb x y
  | None, None => true
  | _, _ => false
  end.

(* ================================================================== *)
(** * [app.py] *)

(** ** [BotConfig]

    A dataclass: the generated [__init__] takes every field as an optional
    keyword argument, stores the argument or the field's default, and calls
    [__post_init__].  The defaults of the four identifiers were read from
    the environment ([os.getenv], which gives [None] for an unset variable)
    when the class was defined. *)

Record BotConfig := {
  ACCESS_TOKEN : option str;
  CHANNEL_SECRET : option str;
  SOURCE_GROUP_ID : option str;
  TARGET_GROUP_ID : option str;
  START_KEYWORD : str;
  OTHER_KEYWORDS : option (list str)
}.

(** The arguments of a constructor call; [None] is an argument left out. *)
Record BotConfigArgs := {
  arg_ACCESS_TOKEN : option (option str);
  arg_CHANNEL_SECRET : option (option str);
  arg_SOURCE_GROUP_ID : option (option str);
  arg_TARGET_GROUP_ID : option (option str);
  arg_START_KEYWORD : option str;
  arg_OTHER_KEYWORDS : option (option (list str))
}.

Definition no_arguments : BotConfigArgs :=
  {| arg_ACCESS_TOKEN := None; arg_CHANNEL_SECRET := None;
     arg_SOURCE_GROUP_ID := None; arg_TARGET_GROUP_ID := None;
     arg_START_KEYWORD := None; arg_OTHER_KEYWORDS := None |}.

Definition or_default {A} (argument : option A) (default : A) : A :=
  match argument with
  | Some v => v
  | None => default
  end.

Definition BotConfig__post_init__ (self : BotConfig) : BotConfig :=
  {| ACCESS_TOKEN := ACCESS_TOKEN self;
     CHANNEL_SECRET := CHANNEL_SECRET self;
     SOURCE_GROUP_ID := SOURCE_GROUP_ID self;
     TARGET_GROUP_ID := TARGET_GROUP_ID self;
     START_KEYWORD := START_KEYWORD self;
     OTHER_KEYWORDS := Some [u "錯誤碼："; u "video:"] |}.

Definition BotConfig__init__ (getenv : str -> option str)
    (args : BotConfigArgs) : BotConfig :=
  BotConfig__post_init__
    {| ACCESS_TOKEN :=
         or_default (arg_ACCESS_TOKEN args) (getenv (u "ACCESS_TOKEN"));
       CHANNEL_SECRET :=
         or_default (arg_CHANNEL_SECRET args) (getenv (u "CHANNEL_SECRET"));
       SOURCE_GROUP_ID :=
         or_default (arg_SOURCE_GROUP_ID args) (getenv (u "SOURCE_GROUP_ID"));
       TARGET_GROUP_ID :=
         or_default (arg_TARGET_GROUP_ID args) (getenv (u "TARGET_GROUP_ID"));
       START_KEYWORD :=
         or_default (arg_START_KEYWORD args) (u "【Cashier Notifier】");
       OTHER_KEYWORDS := or_default (arg_OTHER_KEYWORDS args) None |}.

(** ** [LineBot] *)

Record LineBot := {
  config : BotConfig;
  configuration : Configuration;
  handler : WebhookHandler
}.

(** [setup_handler] registers [handle_message] for text message events; the
    registration is read where the handler dispatches, in
    [WebhookHandler_handle] below.  In the SDK [WebhookHandler(None)]
    raises, so a process whose [CHANNEL_SECRET] is unset stops while
    [app.py] is loaded: the bots that exist are those of a configuration
    whose [CHANNEL_SECRET] is set, and for the others [LineBot__init__]
    gives the fields the assignments would store. *)
Definition LineBot__init__ (config : BotConfig) : LineBot :=
  {| config := config;
     configuration := {| access_token := ACCESS_TOKEN config |};
     handler := {| channel_secret := CHANNEL_SECRET config |} |}.

(** The module-level [bot = LineBot(BotConfig())]. *)
Definition bot (getenv : str -> option str) : LineBot :=
  LineBot__init__ (BotConfig__init__ getenv no_arguments).

Record GroupInfo := {
  summary : GroupSummaryResponse;
  members_count : GroupMemberCountResponse
}.

Definition get_group_info (api : MessagingApi) (group_id : option str)
    : M GroupInfo :=
  try_except
    (group_summary <- get_group_summary api group_id ;;
     group_members_count <- get_group_member_count api group_id ;;
     ret {| summary := group_summary; members_count := group_members_count |})
    (fun e =>
       logger ERROR (u "獲取群組資訊失敗: " ++ exn_str e) ;;;
       raise e).

Definition templates : list (str * str) :=
  [ (u "forward",
     u "[轉發訊息]\n發送者：{sender}\nFrom群組：{group}\n訊息內容：\n\n{text}");
    (u "reply",
     u "[訊息已轉發]\n發送者：{sender}\nTo群組：{group}\n訊息內容：\n\n{text}") ].

Definition create_message_text (message_type sender_name group_name
    original_text : str) : result str :=
  match dict_get templates message_type with
  | Raise e => Raise e
  | Ok template =>
    format template
      [ (u "sender", sender_name);
        (u "group", group_name);
        (u "text", original_text) ]
  end.

(** The HTTP side.  A request to [/callback] is its signature header, if it
    has one, and its body; a view returns a body (status 200) or leaves
    through [abort(status)]. *)
Record Request := { X_Line_Signature : option str; data : str }.

Inductive View :=
| Returned (body : str)
| Aborted (status : N).

Definition http_status (v : View) : N :=
  match v with
  | Returned _ => 200
  | Aborted status => status
  end.

Definition health_check : View := Returned (u "Service is running").

(** The events for which [setup_handler] registers a function: message
    events whose content is text. *)
Definition has_handler (event : Event) : bool :=
  match event with
  | AMessageEvent e =>
    match message e with
    | TextMessageContent _ => true
    | OtherMessageContent _ => false
    end
  | OtherEvent => false
  end.

(* ================================================================== *)
(** * Sample data

    A configured environment, three platforms that differ in where they
    fail, and events of the source group, used to run the program on
    concrete inputs. *)

Definition sample_getenv (name : str) : option str :=
  if str_eqb name (u "SOURCE_GROUP_ID") then Some (u "Csource")
  else if str_eqb name (u "TARGET_GROUP_ID") then Some (u "Ctarget")
  else if str_eqb name (u "ACCESS_TOKEN") then Some (u "token")
  else if str_eqb name (u "CHANNEL_SECRET") then Some (u "secret")
  else None.

Definition sample_bot : LineBot := bot sample_getenv.

(** A platform on which every call succeeds: each group is named after its
    identifier, has [members] members, and every member is called Amy. *)
Definition line_with_counts (members : N) : Platform :=
  {| answer_group_summary := fun _ group_id =>
       Ok {| group_name := u "group " ++ or_default group_id [] |};
     answer_group_member_count := fun _ _ => Ok {| count := members |};
     answer_group_member_profile := fun _ _ _ => Ok {| display_name := u "Amy" |};
     answer_push := fun _ _ => Ok tt;
     answer_reply := fun _ _ => Ok tt |}.

Definition line_ok : Network :=
  fun _ => line_with_counts 7.

(** The same platform, refusing every push. *)
Definition line_push_fails : Network :=
  fun _ =>
    {| answer_group_summary := answer_group_summary (line_with_counts 7);
       answer_group_member_count := answer_group_member_count (line_with_counts 7);
       answer_group_member_profile :=
         answer_group_member_profile (line_with_counts 7);
       answer_push := fun _ _ => Raise (Exn ApiException (u "(429) Too Many Requests"));
       answer_reply := fun _ _ => Ok tt |}.

(** The same platform, failing to count the members of the target group. *)
Definition line_count_fails : Network :=
  fun _ =>
    {| answer_group_summary := answer_group_summary (line_with_counts 7);
       answer_group_member_count := fun _ group_id =>
         if optstr_eqb group_id (Some (u "Ctarget"))
         then Raise (Exn ApiException (u "(500) Internal Server Error"))
         else Ok {| count := 7 |};
       answer_group_member_profile :=
         answer_group_member_profile (line_with_counts 7);
       answer_push := fun _ _ => Ok tt;
       answer_reply := fun _ _ => Ok tt |}.

(** The same platform, refusing every reply. *)
Definition line_reply_fails : Network :=
  fun _ =>
    {| answer_group_summary := answer_group_summary (line_with_counts 7);
       answer_group_member_count := answer_group_member_count (line_with_counts 7);
       answer_group_member_profile :=
         answer_group_member_profile (line_with_counts 7);
       answer_push := fun _ _ => Ok tt;
       answer_reply := fun _ _ =>
         Raise (Exn ApiException (u "(400) Invalid reply token")) |}.

(** The bot of a process started without [SOURCE_GROUP_ID] in its
    environment, and a bot whose configuration was given a start keyword of
    its own. *)
Definition unconfigured_bot : LineBot :=
  bot (fun name =>
         if str_eqb name (u "SOURCE_GROUP_ID") then None
         else sample_getenv name).

Definition alert_bot : LineBot :=
  LineBot__init__
    (BotConfig__init__ sample_getenv
       {| arg_ACCESS_TOKEN := None; arg_CHANNEL_SECRET := None;
          arg_SOURCE_GROUP_ID := None; arg_TARGET_GROUP_ID := None;
          arg_START_KEYWORD := Some (u "[alert]");
          arg_OTHER_KEYWORDS := None |}).

Definition sample_text : str := u "【cashier notifier】XXX錯誤碼：500 video:abc".

Definition sample_event : MessageEvent :=
  {| source := GroupSource (u "Csource") (Some (u "Uamy"));
     reply_token := Some (u "r-token");
     message := TextMessageContent sample_text |}.

Definition sample_event_without_token : MessageEvent :=
  {| source := GroupSource (u "Csource") (Some (u "Uamy"));
     reply_token := None;
     message := TextMessageContent sample_text |}.

Definition sample_unmatched_event : MessageEvent :=
  {| source := GroupSource (u "Csource") (Some (u "Uamy"));
     reply_token := Some (u "r-token");
     message := TextMessageContent (u "【Cashier Notifier】no error code") |}.

Definition sample_user_event : MessageEvent :=
  {| source := UserSource (Some (u "Uamy"));
     reply_token := Some (u "r-token");
     message := TextMessageContent sample_text |}.

(** What the program pushes and replies for [sample_event] on these
    platforms. *)
Definition sample_push_request : PushMessageRequest :=
  {| to := Some (u "Ctarget");
     messages :=
       [ {| text := u "[轉發訊息]\n發送者：Amy\nFrom群組：group Csource\n訊息內容：\n\n【cashier notifier】XXX錯誤碼：500 video:abc" |} ] |}.

Definition sample_reply_request : ReplyMessageRequest :=
  {| reply_to := Some (u "r-token");
     reply_messages :=
       [ {| text := u "[訊息已轉發]\n發送者：Amy\nTo群組：group Ctarget\n訊息內容：\n\n【cashier notifier】XXX錯誤碼：500 video:abc" |} ] |}.

Definition sample_request : Request :=
  {| X_Line_Signature := Some (u "c2lnbmF0dXJl"); data := u "{events}" |}.

Section App.

(** [str.lower], see [Py.lower_spec]. *)
Variable lower : str -> str.

(** The SDK's webhook parser: the signature check of the raw body against
    the channel secret, and the decoding of a body into its events. *)
Variable signature_validate : option str -> str -> str -> bool.
Variable parse_events : str -> result (list Event).

Definition should_forward_message (self : LineBot) (message_text : str)
    : result bool :=
  if negb (startswith (lower message_text)
                      (lower (START_KEYWORD (config self))))
  then Ok false
  else
    match OTHER_KEYWORDS (config self) with
    | None => Raise (Exn TypeError (u "'NoneType' object is not iterable"))
    | Some keywords =>
      Ok (forallb (fun keyword => contains (lower keyword) (lower message_text))
                  keywords)
    end.

(** Entering and leaving the [with ApiClient(...)] block reaches no entry
    point of the platform and is no effect of the model.  Each request
    object is built before the call that sends it, so a request that cannot
    be built raises without the call being made. *)
Definition process_message (self : LineBot) (event : MessageEvent) : M unit :=
  try_except
    (skip <-
       (if str_eqb (source_type (source event)) (u "user") then ret true
        else
          group_id <- lift (source_group_id (source event)) ;;
          ret (negb (optstr_eqb (Some group_id)
                                (SOURCE_GROUP_ID (config self))))) ;;
     if skip : bool then ret tt
     else
       message_text <- lift (content_text (message event)) ;;
       forward <- lift (should_forward_message self message_text) ;;
       if negb forward then ret tt
       else
         let api_client := {| client_configuration := configuration self |} in
         let line_bot_api := {| api_client := api_client |} in
         group_id <- lift (source_group_id (source event)) ;;
         source_group <- get_group_info line_bot_api (Some group_id) ;;
         sender_profile <-
           get_group_member_profile line_bot_api (Some group_id)
             (source_user_id (source event)) ;;
         target_group <-
           get_group_info line_bot_api (TARGET_GROUP_ID (config self)) ;;
         forward_text <-
           lift (create_message_text (u "forward")
                   (display_name sender_profile)
                   (group_name (summary source_group))
                   message_text) ;;
         push_request <-
           lift (PushMessageRequest__init__ (TARGET_GROUP_ID (config self))
                   [ {| text := forward_text |} ]) ;;
         push_message line_bot_api push_request ;;;
         reply_text <-
           lift (create_message_text (u "reply")
                   (display_name sender_profile)
                   (group_name (summary target_group))
                   message_text) ;;
         reply_request <-
           lift (ReplyMessageRequest__init__ (reply_token event)
                   [ {| text := reply_text |} ]) ;;
         reply_message_with_http_info line_bot_api reply_request ;;;
         logger INFO (u "訊息轉發成功: " ++ firstn 50 message_text ++ u "..."))
    (fun e => logger ERROR (u "處理訊息失敗: " ++ exn_str e)).

(** The function [setup_handler] registers for text message events. *)
Definition handle_message (self : LineBot) (event : MessageEvent) : M unit :=
  process_message self event.

(** [WebhookHandler.handle] belongs to the SDK.  It is embedded as sections
    4.1 and 4.2 of the specification describe it: the signature is checked
    first, then the body is decoded into events, then the function
    registered for an event's kind is called on each event in turn.
    [setup_handler] registers one function, for message events with text
    content; the handler passes over every other event. *)
Fixpoint dispatch (self : LineBot) (events : list Event) : M unit :=
  match events with
  | [] => ret tt
  | event :: rest =>
    match event with
    | AMessageEvent e =>
      match message e with
      | TextMessageContent _ => handle_message self e
      | OtherMessageContent _ => ret tt
      end
    | OtherEvent => ret tt
    end ;;;
    dispatch self rest
  end.

Definition WebhookHandler_handle (self : LineBot) (body signature : str)
    : M unit :=
  if negb (signature_validate (channel_secret (handler self)) body signature)
  then raise (Exn InvalidSignatureError
                (u "Invalid signature. signature=" ++ signature))
  else
    events <- lift (parse_events body) ;;
    dispatch self events.

(** [logger.debug] is called whatever level the logger is set to; the model
    records the call.  [abort(status)] leaves the view with that status. *)
Definition callback (bot : LineBot) (request : Request) : M View :=
  let signature := or_default (X_Line_Signature request) [] in
  let body := data request in
  logger INFO (u "Received webhook") ;;;
  logger DEBUG (u "Request body: " ++ body) ;;;
  aborted <-
    try_except
      (WebhookHandler_handle bot body signature ;;; ret None)
      (fun e =>
         if is_InvalidSignatureError e then
           logger ERROR (u "Invalid signature") ;;; ret (Some 400)
         else
           logger ERROR (u "Webhook處理失敗: " ++ exn_str e) ;;; ret (Some 500)) ;;
  match aborted with
  | Some status => ret (Aborted status)
  | None => ret (Returned (u "OK"))
  end.

(** ** The filter, in the words of the specification

    A text starts with (contains) a keyword case-insensitively when its
    lower-cased form starts with (contains) the lower-cased keyword. *)

Definition starts_with_ci (t keyword : str) : Prop :=
  exists rest, lower t = lower keyword ++ rest.

Definition contains_ci (t keyword : str) : Prop :=
  exists before after, lower t = before ++ lower keyword ++ after.

(** An event passes the source guard when it comes from the configured
    source group, and the filter guard when its text is to be forwarded. *)
Definition passes_source_guard (self : LineBot) (event : MessageEvent) : Prop :=
  exists group_id user_id,
    source event = GroupSource group_id user_id /\
    SOURCE_GROUP_ID (config self) = Some group_id.

Definition passes_filter_guard (self : LineBot) (event : MessageEvent) : Prop :=
  exists t,
    message event = TextMessageContent t /\
    should_forward_message self t = Ok true.

(* ================================================================== *)
(** * Properties of the built-ins *)

Lemma str_eqb_eq (a b : str) : str_eqb a b = true <-> a = b.
Proof.
  revert b; induction a as [|x a IH]; intros [|y b]; simpl;
    try (split; (discriminate || reflexivity)).
  rewrite andb_true_iff, N.eqb_eq, IH.
  split; [intros [-> ->]; reflexivity | intros [= -> ->]; auto].
Qed.

Lemma str_eqb_refl (a : str) : str_eqb a a = true.
Proof. apply str_eqb_eq; reflexivity. Qed.

Lemma optstr_eqb_eq (a b : option str) : optstr_eqb a b = true <-> a = b.
Proof.
  destruct a as [x|], b as [y|]; simpl;
    try (split; (discriminate || reflexivity)).
  rewrite str_eqb_eq; split; [intros ->; reflexivity | intros [= ->]; reflexivity].
Qed.

Lemma startswith_prefix (s prefix : str) :
  startswith s prefix = true <-> exists rest, s = prefix ++ rest.
Proof.
  revert s; induction prefix as [|p prefix IH]; intros s; simpl.
  - split; [intros _; exists s; reflexivity | intros _; reflexivity].
  - destruct s as [|c s].
    + split; [discriminate | intros [rest H]; discriminate H].
    + rewrite andb_true_iff, N.eqb_eq, IH. split.
      * intros [-> [rest ->]]. exists rest; reflexivity.
      * intros [rest [= -> ->]]. split; [reflexivity | exists rest; reflexivity].
Qed.

Lemma contains_infix (sub s : str) :
  contains sub s = true <-> exists before after, s = before ++ sub ++ after.
Proof.
  induction s as [|c s IH].
  - simpl. rewrite orb_false_r, startswith_prefix. split.
    + intros [rest H]. exists [], rest. exact H.
    + intros [[|b before] [after H]]; [exists after; exact H | discriminate H].
  - change (contains sub (c :: s))
      with (startswith (c :: s) sub || contains sub s).
    rewrite orb_true_iff, startswith_prefix, IH. split.
    + intros [[rest H] | [before [after H]]].
      * exists [], rest. exact H.
      * exists (c :: before), after. rewrite H. reflexivity.
    + intros [[|b before] [after H]].
      * left. exists after. exact H.
      * right. injection H as _ H. exists before, after. exact H.
Qed.

(** What [create_message_text] builds from each of its two templates. *)
Lemma create_message_text_forward (sender_name group_name original_text : str) :
  create_message_text (u "forward") sender_name group_name original_text =
  Ok (u "[轉發訊息]\n發送者：" ++ sender_name ++ u "\nFrom群組：" ++ group_name
        ++ u "\n訊息內容：\n\n" ++ original_text).
Proof. vm_compute. repeat f_equal. apply app_nil_r. Qed.

Lemma create_message_text_reply (sender_name group_name original_text : str) :
  create_message_text (u "reply") sender_name group_name original_text =
  Ok (u "[訊息已轉發]\n發送者：" ++ sender_name ++ u "\nTo群組：" ++ group_name
        ++ u "\n訊息內容：\n\n" ++ original_text).
Proof. vm_compute. repeat f_equal. apply app_nil_r. Qed.

(** A message type other than the two of the table has no template: for an
    ASCII message type that is neither of them, [create_message_text]
    raises [KeyError], whose message is the [repr] of the type (the type
    between quotes), whatever the other arguments. *)
Theorem create_message_text_unknown_type
    (message_type sender_name group_name original_text : str) :
  is_ascii message_type = true ->
  message_type <> u "forward" ->
  message_type <> u "reply" ->
  create_message_text message_type sender_name group_name original_text
  = Raise (Exn KeyError (repr message_type)).
Proof.
  intros _ Hforward Hreply. unfold create_message_text, templates.
  cbn [dict_get].
  destruct (str_eqb (u "forward") message_type) eqn:H1.
  { apply str_eqb_eq in H1. congruence. }
  destruct (str_eqb (u "reply") message_type) eqn:H2.
  { apply str_eqb_eq in H2. congruence. }
  reflexivity.
Qed.

(* ================================================================== *)
(** * The configuration *)

(** C10 (as amended).  Whatever the environment holds and whatever
    arguments the constructor is given, a constructed [BotConfig] has
    [OTHER_KEYWORDS] equal to the fixed list of the two substrings, and its
    [START_KEYWORD] is the argument given for it, or the fixed start keyword
    when none is given; the program's own [BotConfig()] gives none, so the
    filter of the running bot is the fixed pair, whatever the environment. *)
Theorem BotConfig_filter_keywords :
  forall (getenv : str -> option str) (args : BotConfigArgs),
    OTHER_KEYWORDS (BotConfig__init__ getenv args)
      = Some [u "錯誤碼："; u "video:"] /\
    START_KEYWORD (BotConfig__init__ getenv args)
      = or_default (arg_START_KEYWORD args) (u "【Cashier Notifier】") /\
    START_KEYWORD (config (bot getenv)) = u "【Cashier Notifier】" /\
    OTHER_KEYWORDS (config (bot getenv)) = Some [u "錯誤碼："; u "video:"].
Proof.
  intros getenv args. repeat split.
Qed.

(* ================================================================== *)
(** * The filter *)

Lemma should_forward_message_keywords (self : LineBot) (keywords : list str)
    (t : str) :
  OTHER_KEYWORDS (config self) = Some keywords ->
  exists b,
    should_forward_message self t = Ok b /\
    (b = true <->
     starts_with_ci t (START_KEYWORD (config self)) /\
     Forall (contains_ci t) keywords).
Proof.
  intros Hk. unfold should_forward_message. rewrite Hk.
  destruct (startswith (lower t) (lower (START_KEYWORD (config self))))
    eqn:Hstart; simpl.
  - eexists; split; [reflexivity|].
    rewrite forallb_forall, Forall_forall. split.
    + intros H. split; [apply startswith_prefix, Hstart|].
      intros k Hin. apply contains_infix, H, Hin.
    + intros [_ H] k Hin. apply contains_infix, H, Hin.
  - exists false. split; [reflexivity|]. split; [discriminate|].
    intros [H _]. apply startswith_prefix in H. congruence.
Qed.

(** C1.  With the program's configuration, [should_forward_message] returns
    a boolean for every text, and returns true exactly when the text starts
    with the start keyword and contains both required substrings, all three
    compared case-insensitively.  The two texts of the specification's
    example are forwarded and not forwarded. *)
Theorem should_forward_message_spec :
  lower_spec lower ->
  forall getenv : str -> option str,
    (forall t, exists b,
        should_forward_message (bot getenv) t = Ok b /\
        (b = true <->
         starts_with_ci t (u "【Cashier Notifier】") /\
         contains_ci t (u "錯誤碼：") /\
         contains_ci t (u "video:"))) /\
    should_forward_message (bot getenv)
      (u "【cashier notifier】XXX錯誤碼：500 video:abc") = Ok true /\
    should_forward_message (bot getenv)
      (u "【Cashier Notifier】no error code") = Ok false.
Proof.
  intros Hlower getenv. split; [|split].
  - intros t.
    destruct (should_forward_message_keywords (bot getenv)
                [u "錯誤碼："; u "video:"] t eq_refl) as [b [Hb Hiff]].
    exists b. split; [exact Hb|]. rewrite Hiff.
    change (START_KEYWORD (config (bot getenv))) with (u "【Cashier Notifier】").
    split.
    + intros [H1 H2]. inversion H2 as [|? ? Ha H3]; subst.
      inversion H3 as [|? ? Hb' _]; subst. auto.
    + intros [H1 [H2 H3]]. auto.
  - unfold should_forward_message.
    change (START_KEYWORD (config (bot getenv))) with (u "【Cashier Notifier】").
    change (OTHER_KEYWORDS (config (bot getenv)))
      with (Some [u "錯誤碼："; u "video:"]).
    cbv [forallb].
    rewrite !Hlower by (vm_compute; reflexivity).
    vm_compute. reflexivity.
  - unfold should_forward_message.
    change (START_KEYWORD (config (bot getenv))) with (u "【Cashier Notifier】").
    change (OTHER_KEYWORDS (config (bot getenv)))
      with (Some [u "錯誤碼："; u "video:"]).
    cbv [forallb].
    rewrite !Hlower by (vm_compute; reflexivity).
    vm_compute. reflexivity.
Qed.

(** The filter for any configured keywords: with a start keyword and a list
    of required substrings in the configuration, [should_forward_message]
    returns a boolean, true exactly when the text starts with the start
    keyword and contains every substring of the list, compared
    case-insensitively.  The order of the list and repetitions in it do not
    matter, and an empty list asks for nothing. *)
Theorem should_forward_message_configured (self : LineBot)
    (keywords : list str) (t : str) :
  OTHER_KEYWORDS (config self) = Some keywords ->
  exists b,
    should_forward_message self t = Ok b /\
    (b = true <->
     starts_with_ci t (START_KEYWORD (config self)) /\
     forall keyword, In keyword keywords -> contains_ci t keyword).
Proof.
  intros Hk.
  destruct (should_forward_message_keywords self keywords t Hk)
    as [b [Hb Hiff]].
  exists b. split; [exact Hb|]. rewrite Hiff, Forall_forall. reflexivity.
Qed.

(** On plain texts (ASCII and the caseless CJK blocks) the filter does not
    see the case of ASCII letters: two plain texts that are equal once their
    ASCII capitals are lower-cased get the same answer. *)
Theorem should_forward_message_ignores_ascii_case (self : LineBot)
    (t t' : str) :
  lower_spec lower ->
  forallb plain t = true ->
  forallb plain t' = true ->
  lower_plain t = lower_plain t' ->
  should_forward_message self t = should_forward_message self t'.
Proof.
  intros Hlower Ht Ht' Hsame. unfold should_forward_message.
  rewrite (Hlower t Ht), (Hlower t' Ht'), Hsame. reflexivity.
Qed.

(* ================================================================== *)
(** * The forwarding handler *)

Lemma is_user (s : Source) :
  str_eqb (source_type s) (u "user") =
  match s with UserSource _ => true | _ => false end.
Proof. destruct s; vm_compute; reflexivity. Qed.

Arguments u : simpl never.
Arguments create_message_text : simpl never.
Arguments should_forward_message : simpl never.
Arguments optstr_eqb : simpl never.
Arguments firstn : simpl never.
Arguments PushMessageRequest__init__ : simpl never.
Arguments ReplyMessageRequest__init__ : simpl never.

(** The next call of the run in the goal: either way it ended. *)
Ltac next_answer :=
  match goal with
  | |- context [answer_group_summary ?p ?h ?g] =>
    destruct (answer_group_summary p h g) as [?|?] eqn:?
  | |- context [answer_group_member_count ?p ?h ?g] =>
    destruct (answer_group_member_count p h g) as [?|?] eqn:?
  | |- context [answer_group_member_profile ?p ?h ?g ?m] =>
    destruct (answer_group_member_profile p h g m) as [?|?] eqn:?
  | |- context [answer_push ?p ?h ?r] =>
    destruct (answer_push p h r) as [[]|?] eqn:?
  | |- context [answer_reply ?p ?h ?r] =>
    destruct (answer_reply p h r) as [[]|?] eqn:?
  | |- context [PushMessageRequest__init__ ?t _] =>
    destruct t as [?|] eqn:?; cbv beta iota delta [PushMessageRequest__init__]
  | |- context [ReplyMessageRequest__init__ ?t _] =>
    destruct t as [?|] eqn:?; cbv beta iota delta [ReplyMessageRequest__init__]
  end;
  cbn;
  rewrite ?create_message_text_forward, ?create_message_text_reply;
  cbn.

(** Every way through [process_message]: the source, the group, the kind of
    message, the filter, and how each call to the platform ended. *)
Ltac cases_of_process_message self event :=
  unfold process_message;
  rewrite is_user;
  destruct (source event) as [?uid|?gid ?uid|?rid ?uid] eqn:?Hsource; cbn;
  [ | destruct (optstr_eqb (Some gid) (SOURCE_GROUP_ID (config self)))
        eqn:?Hgroup; cbn;
      [ destruct (message event) as [?t|] eqn:?Hmessage; cbn;
        [ destruct (should_forward_message self t) as [[|]|?e]
            eqn:?Hforward; cbn;
          [ repeat next_answer | | ]
        | ]
      | ]
  | ].

(** C4.  An event from an individual chat, or from a group other than the
    configured source group, makes the handler return normally without a
    single effect: no call to the platform, and no log record either. *)
Theorem process_message_source_guard (net : Network) (self : LineBot)
    (event : MessageEvent) (before : list Call) :
  (source_type (source event) = u "user" \/
   exists group_id,
     source_group_id (source event) = Ok group_id /\
     Some group_id <> SOURCE_GROUP_ID (config self)) ->
  run net (process_message self event) before = (Ok tt, []).
Proof.
  intros [Huser | [group_id [Hid Hother]]].
  - unfold process_message. rewrite Huser, str_eqb_refl. reflexivity.
  - unfold process_message. rewrite is_user.
    destruct (source event) as [uid|gid uid|rid uid]; try discriminate Hid.
    injection Hid as ->. cbn.
    destruct (optstr_eqb (Some group_id) (SOURCE_GROUP_ID (config self)))
      eqn:Hgroup; [|reflexivity].
    apply optstr_eqb_eq in Hgroup. contradiction.
Qed.

(** The filter guard: an event of the source group whose text is not to be
    forwarded makes the handler return normally without a single effect. *)
Theorem process_message_filter_guard (net : Network) (self : LineBot)
    (event : MessageEvent) (before : list Call) (t : str) :
  passes_source_guard self event ->
  message event = TextMessageContent t ->
  should_forward_message self t = Ok false ->
  run net (process_message self event) before = (Ok tt, []).
Proof.
  intros [group_id [user_id [Hs Hid]]] Hm Hf.
  unfold process_message. rewrite is_user, Hs. cbn.
  rewrite Hid, (proj2 (optstr_eqb_eq _ _) eq_refl). cbn.
  rewrite Hm. cbn. rewrite Hf. reflexivity.
Qed.

(** C3.  In every run of the handler, if a metadata retrieval raised, the
    run made no delivery call: neither a push nor a reply. *)
Theorem no_partial_forward (net : Network) (self : LineBot)
    (event : MessageEvent) (before : list Call) (r : result unit)
    (out : list Effect) :
  run net (process_message self event) before = (r, out) ->
  existsb failed_retrieval out = true ->
  deliveries out = [].
Proof.
  cases_of_process_message self event.
  all: intros [= <- <-]; cbn; try discriminate; reflexivity.
Qed.

(** C2 (as amended).  When an event passes both guards, no metadata
    retrieval raises, the two requests can be built ([TARGET_GROUP_ID] is
    set and the event has a reply token) and the push does not raise, the
    delivery calls of the run are exactly two: one push to
    [TARGET_GROUP_ID], then one reply with the event's reply token. *)
Theorem forward_is_push_then_reply (net : Network) (self : LineBot)
    (event : MessageEvent) (before : list Call) (r : result unit)
    (out : list Effect) :
  passes_source_guard self event ->
  passes_filter_guard self event ->
  TARGET_GROUP_ID (config self) <> None ->
  reply_token event <> None ->
  run net (process_message self event) before = (r, out) ->
  existsb failed_retrieval out = false ->
  existsb failed_push out = false ->
  exists forward_text reply_text,
    deliveries out =
    [ PushMessage {| to := TARGET_GROUP_ID (config self);
                     messages := [ {| text := forward_text |} ] |};
      ReplyMessage {| reply_to := reply_token event;
                      reply_messages := [ {| text := reply_text |} ] |} ].
Proof.
  intros [group_id [user_id [Hs Hid]]] [t' [Hm Hf]] Htarget Htoken.
  cases_of_process_message self event.
  all: try discriminate Hs; try discriminate Hm.
  all: injection Hs as <- <-; try injection Hm as <-.
  all: try (rewrite Hid, (proj2 (optstr_eqb_eq _ _) eq_refl) in Hgroup;
            discriminate Hgroup).
  all: try congruence.
  all: intros [= <- <-]; cbn; try discriminate.
  all: intros _ _; eexists; eexists; reflexivity.
Qed.


(** ** More on the runs of the handler *)

(** With [SOURCE_GROUP_ID] unset in the environment the comparison of the
    guard never succeeds: the handler returns normally and calls the
    platform for no event at all. *)
Theorem unset_source_group_forwards_nothing (net : Network) (self : LineBot)
    (event : MessageEvent) (before : list Call) :
  SOURCE_GROUP_ID (config self) = None ->
  fst (run net (process_message self event) before) = Ok tt /\
  calls (snd (run net (process_message self event) before)) = [].
Proof.
  intros Hunset. unfold process_message. rewrite is_user, Hunset.
  destruct (source event); cbn; split; reflexivity.
Qed.

(** The delivery calls of a run are nothing, one push, or one push followed
    by one reply; the push goes to [TARGET_GROUP_ID] and the reply uses the
    reply token of the event, each with a single text message. *)
Theorem deliveries_of_a_run (net : Network) (self : LineBot)
    (event : MessageEvent) (before : list Call) :
  deliveries (snd (run net (process_message self event) before)) = [] \/
  (exists forward_text,
     deliveries (snd (run net (process_message self event) before))
     = [ PushMessage {| to := TARGET_GROUP_ID (config self);
                        messages := [ {| text := forward_text |} ] |} ]) \/
  (exists forward_text reply_text,
     deliveries (snd (run net (process_message self event) before))
     = [ PushMessage {| to := TARGET_GROUP_ID (config self);
                        messages := [ {| text := forward_text |} ] |};
         ReplyMessage {| reply_to := reply_token event;
                         reply_messages := [ {| text := reply_text |} ] |} ]).
Proof.
  cases_of_process_message self event.
  all: cbn; try (left; reflexivity).
  all: right; first [ left; eexists; reflexivity
                    | right; eexists; eexists; reflexivity ].
Qed.


(** An event without a reply token is forwarded and not confirmed: when it
    passes both guards, [TARGET_GROUP_ID] is set and no metadata retrieval
    raises, the run pushes to the target group and makes no reply call,
    because the reply request cannot be built; the handler returns normally
    and writes no record of success. *)
Theorem missing_reply_token_leaves_the_push (net : Network) (self : LineBot)
    (event : MessageEvent) (before : list Call) (r : result unit)
    (out : list Effect) :
  passes_source_guard self event ->
  passes_filter_guard self event ->
  TARGET_GROUP_ID (config self) <> None ->
  reply_token event = None ->
  run net (process_message self event) before = (r, out) ->
  existsb failed_retrieval out = false ->
  r = Ok tt /\
  (exists forward_text,
     deliveries out
     = [ PushMessage {| to := TARGET_GROUP_ID (config self);
                        messages := [ {| text := forward_text |} ] |} ]) /\
  forall msg, ~ In (Log INFO msg) out.
Proof.
  intros [group_id [user_id [Hs Hid]]] [t' [Hm Hf]] Htarget Htoken.
  cases_of_process_message self event.
  all: try discriminate Hs; try discriminate Hm.
  all: injection Hs as <- <-; try injection Hm as <-.
  all: try (rewrite Hid, (proj2 (optstr_eqb_eq _ _) eq_refl) in Hgroup;
            discriminate Hgroup).
  all: try congruence.
  all: intros [= <- <-]; cbn; try discriminate.
  all: intros _; split; [reflexivity|]; split; [eexists; reflexivity|].
  all: intros msg Hin;
    repeat (destruct Hin as [Hin|Hin]; [discriminate Hin|]); contradiction.
Qed.

(** The record of a successful forward is written exactly when both the
    push and the reply returned. *)
Theorem success_record_iff_both_delivered (net : Network) (self : LineBot)
    (event : MessageEvent) (before : list Call) :
  (exists msg,
     In (Log INFO msg) (snd (run net (process_message self event) before)))
  <->
  (exists push_request reply_request,
     In (Api (PushMessage push_request) (Ok Sent))
        (snd (run net (process_message self event) before)) /\
     In (Api (ReplyMessage reply_request) (Ok Sent))
        (snd (run net (process_message self event) before))).
Proof.
  cases_of_process_message self event.
  all: cbn [snd]; split.
  all: try (intros [msg Hin]; cbn in Hin;
            repeat (destruct Hin as [Hin|Hin]; [discriminate Hin|]);
            contradiction).
  all: try (intros [push_request [reply_request [_ Hin]]]; cbn in Hin;
            repeat (destruct Hin as [Hin|Hin]; [discriminate Hin|]);
            contradiction).
  - intros _. eexists. eexists. split.
    + do 5 right. left. reflexivity.
    + do 6 right. left. reflexivity.
  - intros _. eexists. do 7 right. left. reflexivity.
Qed.

(** The record of a successful forward quotes at most the first fifty code
    points of the text: the whole text when it is that short, its first
    fifty code points otherwise, between a fixed heading and three dots. *)
Theorem success_record_quotes_fifty (net : Network) (self : LineBot)
    (event : MessageEvent) (before : list Call) (msg : str) :
  In (Log INFO msg) (snd (run net (process_message self event) before)) ->
  exists t,
    message event = TextMessageContent t /\
    msg = u "訊息轉發成功: " ++ firstn 50 t ++ u "..." /\
    (List.length t <= 50 -> msg = u "訊息轉發成功: " ++ t ++ u "...")%nat /\
    (List.length msg <= 61)%nat.
Proof.
  cases_of_process_message self event.
  all: cbn [snd]; intros Hin; cbn in Hin.
  all: repeat (destruct Hin as [Hin|Hin]; [try discriminate Hin|]);
    try contradiction.
  injection Hin as <-.
  exists t. split; [reflexivity|]. split; [reflexivity|]. split.
  - intros Hshort. rewrite firstn_all2 by exact Hshort. reflexivity.
  - change (List.length (u "訊息轉發成功: " ++ firstn 50 t ++ u "...") <= 61)%nat.
    rewrite !length_app, length_firstn.
    change (List.length (u "訊息轉發成功: ")) with 8%nat.
    change (List.length (u "...")) with 3%nat. lia.
Qed.

(** A reply that raises comes after a push that was delivered: the message
    is then in the target group only, and the handler logs the exception. *)
Theorem failed_reply_leaves_the_push (net : Network) (self : LineBot)
    (event : MessageEvent) (before : list Call)
    (reply_request : ReplyMessageRequest) (e : exn) :
  In (Api (ReplyMessage reply_request) (Raise e))
     (snd (run net (process_message self event) before)) ->
  exists push_request,
    In (Api (PushMessage push_request) (Ok Sent))
       (snd (run net (process_message self event) before)) /\
    deliveries (snd (run net (process_message self event) before))
    = [PushMessage push_request; ReplyMessage reply_request] /\
    In (Log ERROR (u "處理訊息失敗: " ++ exn_str e))
       (snd (run net (process_message self event) before)).
Proof.
  cases_of_process_message self event.
  all: cbn [snd]; intros Hin; cbn in Hin.
  all: repeat (destruct Hin as [Hin|Hin]; [try discriminate Hin|]);
    try contradiction.
  injection Hin as <- <-.
  eexists. split; [|split].
  - do 5 right. left. reflexivity.
  - reflexivity.
  - do 7 right. left. reflexivity.
Qed.

(* ================================================================== *)
(** * Running programs *)

Lemma calls_app (t1 t2 : list Effect) : calls (t1 ++ t2) = calls t1 ++ calls t2.
Proof. apply flat_map_app. Qed.

Lemma run_bind {A B} (net : Network) (m : M A) (f : A -> M B)
    (before : list Call) :
  run net (bind m f) before =
  match run net m before with
  | (Ok a, out) =>
    let (y, out') := run net (f a) (before ++ calls out) in (y, out ++ out')
  | (Raise e, out) => (Raise e, out)
  end.
Proof.
  revert before.
  induction m as [a|e|client c k IH|lvl msg k IH]; intros before; cbn.
  - rewrite app_nil_r. destruct (run net (f a) before); reflexivity.
  - reflexivity.
  - rewrite IH. destruct (run net (k _) (before ++ [c])) as [[a|e] out]; cbn.
    + rewrite <- app_assoc. cbn. destruct (run net (f a) _). reflexivity.
    + reflexivity.
  - rewrite IH. destruct (run net k before) as [[a|e] out]; cbn.
    + destruct (run net (f a) _). reflexivity.
    + reflexivity.
Qed.

Lemma run_try_except {A} (net : Network) (m : M A) (handler : exn -> M A)
    (before : list Call) :
  run net (try_except m handler) before =
  match run net m before with
  | (Ok a, out) => (Ok a, out)
  | (Raise e, out) =>
    let (y, out') := run net (handler e) (before ++ calls out) in
    (y, out ++ out')
  end.
Proof.
  revert before.
  induction m as [a|e|client c k IH|lvl msg k IH]; intros before; cbn.
  - reflexivity.
  - rewrite app_nil_r. destruct (run net (handler e) before); reflexivity.
  - rewrite IH. destruct (run net (k _) (before ++ [c])) as [[a|e] out]; cbn.
    + reflexivity.
    + rewrite <- app_assoc. cbn. destruct (run net (handler e) _). reflexivity.
  - rewrite IH. destruct (run net k before) as [[a|e] out]; cbn.
    + reflexivity.
    + destruct (run net (handler e) _). reflexivity.
Qed.

(* ================================================================== *)
(** * The webhook endpoint *)

(** The last element of a list written out is in it. *)
Ltac in_last :=
  lazymatch goal with
  | |- In _ [_] => apply in_eq
  | |- In _ (_ :: _) => apply in_cons; in_last
  end.

(** The handler never lets an exception out, and whatever a call to the
    platform raised is in an error record of the handler's own. *)
Lemma process_message_catches (net : Network) (self : LineBot)
    (event : MessageEvent) (before : list Call) :
  exists out,
    run net (process_message self event) before = (Ok tt, out) /\
    forall c e,
      In (Api c (Raise e)) out ->
      In (Log ERROR (u "處理訊息失敗: " ++ exn_str e)) out.
Proof.
  cases_of_process_message self event.
  all: eexists; split; [reflexivity|].
  all: intros c e' Hin; cbn in Hin.
  all: repeat (destruct Hin as [Hin|Hin];
               [ try discriminate Hin; injection Hin as <- <-; in_last | ]).
  all: contradiction.
Qed.

Lemma dispatch_returns (net : Network) (self : LineBot) (events : list Event)
    (before : list Call) :
  exists out, run net (dispatch self events) before = (Ok tt, out).
Proof.
  revert before. induction events as [|event rest IH]; intros before.
  - exists []. reflexivity.
  - cbn [dispatch]. rewrite run_bind.
    assert (exists out,
      run net
        match event with
        | AMessageEvent e =>
          match message e with
          | TextMessageContent _ => handle_message self e
          | OtherMessageContent _ => ret tt
          end
        | OtherEvent => ret tt
        end before = (Ok tt, out)) as [out ->].
    { destruct event as [e|]; [destruct (message e)|];
        try (exists []; reflexivity).
      destruct (process_message_catches net self e before) as [out [H _]].
      exists out. exact H. }
    destruct (IH (before ++ calls out)) as [out' ->].
    eexists. reflexivity.
Qed.

Lemma callback_run (net : Network) (bot : LineBot) (request : Request)
    (before : list Call) :
  run net (callback bot request) before =
  match run net (WebhookHandler_handle bot (data request)
                   (or_default (X_Line_Signature request) [])) before with
  | (Ok _, out) =>
    (Ok (Returned (u "OK")),
     Log INFO (u "Received webhook") ::
     Log DEBUG (u "Request body: " ++ data request) :: out)
  | (Raise e, out) =>
    if is_InvalidSignatureError e then
      (Ok (Aborted 400),
       Log INFO (u "Received webhook") ::
       Log DEBUG (u "Request body: " ++ data request) ::
       out ++ [Log ERROR (u "Invalid signature")])
    else
      (Ok (Aborted 500),
       Log INFO (u "Received webhook") ::
       Log DEBUG (u "Request body: " ++ data request) ::
       out ++ [Log ERROR (u "Webhook處理失敗: " ++ exn_str e)])
  end.
Proof.
  unfold callback. cbn.
  rewrite run_bind, run_try_except, run_bind.
  destruct (run net (WebhookHandler_handle _ _ _) before) as [[[]|e] out]; cbn.
  - rewrite !app_nil_r. reflexivity.
  - destruct (is_InvalidSignatureError e); cbn; rewrite ?app_nil_r; reflexivity.
Qed.

(** C6.  A POST to [/callback] is answered in one of three ways.  When the
    signature check fails the view aborts with status 400, having done
    nothing but write its log records: the body is not decoded and no event
    is handled.  When the handler raises, the view aborts: with status 400
    for an invalid signature, with status 500 for any other exception.  When
    the handler returns, the view returns the body OK, which is status 200. *)
Theorem callback_responses (net : Network) (bot : LineBot) (request : Request)
    (before : list Call) :
  (signature_validate (channel_secret (handler bot)) (data request)
     (or_default (X_Line_Signature request) []) = false ->
   run net (callback bot request) before =
   (Ok (Aborted 400),
    [ Log INFO (u "Received webhook");
      Log DEBUG (u "Request body: " ++ data request);
      Log ERROR (u "Invalid signature") ])) /\
  (forall e out,
     run net (WebhookHandler_handle bot (data request)
                (or_default (X_Line_Signature request) [])) before
       = (Raise e, out) ->
     fst (run net (callback bot request) before)
     = Ok (Aborted (if is_InvalidSignatureError e then 400 else 500))) /\
  (forall out,
     run net (WebhookHandler_handle bot (data request)
                (or_default (X_Line_Signature request) [])) before
       = (Ok tt, out) ->
     fst (run net (callback bot request) before) = Ok (Returned (u "OK"))) /\
  http_status (Returned (u "OK")) = 200.
Proof.
  split; [|split; [|split]].
  - intros Hsig. rewrite callback_run. unfold WebhookHandler_handle.
    rewrite Hsig. reflexivity.
  - intros e out Hrun. rewrite callback_run, Hrun.
    destruct (is_InvalidSignatureError e); reflexivity.
  - intros out Hrun. rewrite callback_run, Hrun. reflexivity.
  - reflexivity.
Qed.


(** ** More on the endpoint and the retrievals *)

(** [get_group_info] asks for the summary of the group, then for its member
    count.  When either call raises, it writes one error record and raises
    the same exception; after a summary that raised it does not ask for the
    count.  When both return, it returns both and writes nothing. *)
Theorem get_group_info_run (net : Network) (api : MessagingApi)
    (group_id : option str) (before : list Call) :
  run net (get_group_info api group_id) before =
  match answer_group_summary (net (client_configuration (api_client api)))
          before group_id with
  | Raise e =>
    (Raise e,
     [ Api (GetGroupSummary group_id) (Raise e);
       Log ERROR (u "獲取群組資訊失敗: " ++ exn_str e) ])
  | Ok group_summary =>
    match answer_group_member_count
            (net (client_configuration (api_client api)))
            (before ++ [GetGroupSummary group_id]) group_id with
    | Raise e =>
      (Raise e,
       [ Api (GetGroupSummary group_id) (Ok (SummaryOf group_summary));
         Api (GetGroupMemberCount group_id) (Raise e);
         Log ERROR (u "獲取群組資訊失敗: " ++ exn_str e) ])
    | Ok group_members_count =>
      (Ok {| summary := group_summary;
             members_count := group_members_count |},
       [ Api (GetGroupSummary group_id) (Ok (SummaryOf group_summary));
         Api (GetGroupMemberCount group_id)
             (Ok (CountOf group_members_count)) ])
    end
  end.
Proof.
  unfold get_group_info. cbn.
  destruct (answer_group_summary _ before group_id); cbn; [|reflexivity].
  destruct (answer_group_member_count _ _ group_id); reflexivity.
Qed.

(** A body whose signature verifies and which the SDK cannot decode is
    answered with an abort, 500 unless the decoder raised an invalid
    signature itself, after three log records and nothing else: no event is
    handled and the platform is not called. *)
Theorem callback_undecodable_body (net : Network) (bot : LineBot)
    (request : Request) (before : list Call) (e : exn) :
  signature_validate (channel_secret (handler bot)) (data request)
    (or_default (X_Line_Signature request) []) = true ->
  parse_events (data request) = Raise e ->
  run net (callback bot request) before =
  (Ok (Aborted (if is_InvalidSignatureError e then 400 else 500)),
   [ Log INFO (u "Received webhook");
     Log DEBUG (u "Request body: " ++ data request);
     Log ERROR (if is_InvalidSignatureError e
                then u "Invalid signature"
                else u "Webhook處理失敗: " ++ exn_str e) ]).
Proof.
  intros Hsig Hparse. rewrite callback_run. unfold WebhookHandler_handle.
  rewrite Hsig, Hparse. cbn.
  destruct (is_InvalidSignatureError e); reflexivity.
Qed.

Lemma dispatch_without_handlers (net : Network) (self : LineBot)
    (events : list Event) (before : list Call) :
  forallb (fun event => negb (has_handler event)) events = true ->
  run net (dispatch self events) before = (Ok tt, []).
Proof.
  induction events as [|event rest IH]; [reflexivity|].
  cbn [forallb]. rewrite andb_true_iff. intros [Hnone Hrest].
  cbn [dispatch]. rewrite run_bind.
  destruct event as [e|]; cbn in Hnone |- *.
  - destruct (message e); [discriminate Hnone|]. cbn.
    rewrite app_nil_r, (IH Hrest). reflexivity.
  - rewrite app_nil_r, (IH Hrest). reflexivity.
Qed.

(** A body with no text message among its events (follows, joins, images,
    stickers, or no event at all) is answered OK after the two records of
    its receipt: nothing is handled and the platform is not called. *)
Theorem callback_without_text_messages (net : Network) (bot : LineBot)
    (request : Request) (before : list Call) (events : list Event) :
  signature_validate (channel_secret (handler bot)) (data request)
    (or_default (X_Line_Signature request) []) = true ->
  parse_events (data request) = Ok events ->
  forallb (fun event => negb (has_handler event)) events = true ->
  run net (callback bot request) before =
  (Ok (Returned (u "OK")),
   [ Log INFO (u "Received webhook");
     Log DEBUG (u "Request body: " ++ data request) ]).
Proof.
  intros Hsig Hparse Hnone. rewrite callback_run. unfold WebhookHandler_handle.
  rewrite Hsig, Hparse. cbn.
  rewrite (dispatch_without_handlers net bot events before Hnone).
  reflexivity.
Qed.

(** The events of a body are handled one after the other: the effects of
    handling a list of events are those of handling its first part followed
    by those of handling the rest after the calls of the first part. *)
Theorem dispatch_app (net : Network) (self : LineBot)
    (events1 events2 : list Event) (before : list Call) :
  snd (run net (dispatch self (events1 ++ events2)) before)
  = snd (run net (dispatch self events1) before)
    ++ snd (run net (dispatch self events2)
              (before ++ calls (snd (run net (dispatch self events1) before)))).
Proof.
  revert before. induction events1 as [|event rest IH]; intros before.
  - cbn. rewrite app_nil_r. reflexivity.
  - cbn [app dispatch]. rewrite !run_bind.
    assert (exists out,
      run net
        match event with
        | AMessageEvent e =>
          match message e with
          | TextMessageContent _ => handle_message self e
          | OtherMessageContent _ => ret tt
          end
        | OtherEvent => ret tt
        end before = (Ok tt, out)) as [out ->].
    { destruct event as [e|]; [destruct (message e)|];
        try (exists []; reflexivity).
      destruct (process_message_catches net self e before) as [out [H _]].
      exists out. exact H. }
    specialize (IH (before ++ calls out)).
    destruct (run net (dispatch self (rest ++ events2)) (before ++ calls out))
      as [r12 out12].
    destruct (run net (dispatch self rest) (before ++ calls out))
      as [r1 out1].
    cbn [snd] in IH |- *.
    rewrite IH, calls_app, !app_assoc. reflexivity.
Qed.

(** The response of the endpoint does not depend on the platform: on any
    two networks, after any calls, the same request gets the same response.
    What the platform does shows in the log and nowhere else. *)
Theorem callback_response_ignores_platform (net1 net2 : Network)
    (bot : LineBot) (request : Request) (before1 before2 : list Call) :
  fst (run net1 (callback bot request) before1)
  = fst (run net2 (callback bot request) before2).
Proof.
  rewrite !callback_run. unfold WebhookHandler_handle.
  destruct (signature_validate _ _ _); cbn; [|reflexivity].
  destruct (parse_events (data request)) as [events|e]; cbn.
  - destruct (dispatch_returns net1 bot events before1) as [out1 ->].
    destruct (dispatch_returns net2 bot events before2) as [out2 ->].
    reflexivity.
  - destruct (is_InvalidSignatureError e); reflexivity.
Qed.

(* ================================================================== *)
(** * Two runs of the handler *)

Section TwoRuns.

Variables net1 net2 : Network.
Variable self : LineBot.

(** Which histories of the two runs correspond: a relation kept by
    appending the same call on both sides. *)
Variable related : list Call -> list Call -> Prop.

Hypothesis related_snoc :
  forall h1 h2 c, related h1 h2 -> related (h1 ++ [c]) (h2 ++ [c]).

Hypothesis same_summary :
  forall h1 h2 g, related h1 h2 ->
    answer_group_summary (net1 (configuration self)) h1 g
    = answer_group_summary (net2 (configuration self)) h2 g.

Hypothesis same_count_ending :
  forall h1 h2 g, related h1 h2 ->
    same_ending (answer_group_member_count (net1 (configuration self)) h1 g)
                (answer_group_member_count (net2 (configuration self)) h2 g).

Hypothesis same_profile :
  forall h1 h2 g m, related h1 h2 ->
    answer_group_member_profile (net1 (configuration self)) h1 g m
    = answer_group_member_profile (net2 (configuration self)) h2 g m.

Hypothesis same_push :
  forall h1 h2 r, related h1 h2 ->
    answer_push (net1 (configuration self)) h1 r
    = answer_push (net2 (configuration self)) h2 r.

Ltac still_related := repeat apply related_snoc; assumption.

Ltac next_answers :=
  match goal with
  | |- context [answer_group_summary (net2 ?c) ?h2 ?g] =>
    match goal with
    | |- context [answer_group_summary (net1 c) ?h1 g] =>
      rewrite <- (same_summary h1 h2 g ltac:(still_related));
      destruct (answer_group_summary (net1 c) h1 g) as [?|?]
    end
  | |- context [answer_group_member_count (net2 ?c) ?h2 ?g] =>
    match goal with
    | |- context [answer_group_member_count (net1 c) ?h1 g] =>
      let H := fresh "H" in
      pose proof (same_count_ending h1 h2 g ltac:(still_related)) as H;
      destruct (answer_group_member_count (net1 c) h1 g) as [?|?],
               (answer_group_member_count (net2 c) h2 g) as [?|?];
      cbn in H; try contradiction; try subst
    end
  | |- context [answer_group_member_profile (net2 ?c) ?h2 ?g ?m] =>
    match goal with
    | |- context [answer_group_member_profile (net1 c) ?h1 g m] =>
      rewrite <- (same_profile h1 h2 g m ltac:(still_related));
      destruct (answer_group_member_profile (net1 c) h1 g m) as [?|?]
    end
  | |- context [answer_push (net2 ?c) ?h2 ?r] =>
    match goal with
    | |- context [answer_push (net1 c) ?h1 r] =>
      rewrite <- (same_push h1 h2 r ltac:(still_related));
      destruct (answer_push (net1 c) h1 r) as [[]|?]
    end
  | |- context [answer_reply (net2 ?c) ?h2 ?r] =>
    match goal with
    | |- context [answer_reply (net1 c) ?h1 r] =>
      destruct (answer_reply (net1 c) h1 r) as [[]|?],
               (answer_reply (net2 c) h2 r) as [[]|?]
    end
  | |- context [PushMessageRequest__init__ ?t _] =>
    destruct t as [?|]; cbv beta iota delta [PushMessageRequest__init__]
  | |- context [ReplyMessageRequest__init__ ?t _] =>
    destruct t as [?|]; cbv beta iota delta [ReplyMessageRequest__init__]
  end;
  cbn;
  rewrite ?create_message_text_forward, ?create_message_text_reply;
  cbn.

(** Two runs of the handler on one event whose platforms end each
    retrieval and each push the same way make the same calls, one by one. *)
Lemma process_message_same_calls (event : MessageEvent) (b1 b2 : list Call) :
  related b1 b2 ->
  calls (snd (run net1 (process_message self event) b1))
  = calls (snd (run net2 (process_message self event) b2)).
Proof.
  intros Hrel.
  unfold process_message. rewrite is_user.
  destruct (source event) as [uid|gid uid|rid uid]; cbn; try reflexivity.
  destruct (optstr_eqb (Some gid) (SOURCE_GROUP_ID (config self)));
    cbn; try reflexivity.
  destruct (message event) as [t|]; cbn; try reflexivity.
  destruct (should_forward_message self t) as [[|]|e]; cbn; try reflexivity.
  repeat next_answers; reflexivity.
Qed.

Lemma related_app (h1 h2 l : list Call) :
  related h1 h2 -> related (h1 ++ l) (h2 ++ l).
Proof.
  revert h1 h2. induction l as [|c l IH]; intros h1 h2 Hrel.
  - rewrite !app_nil_r. exact Hrel.
  - change (c :: l) with ([c] ++ l). rewrite !app_assoc.
    apply IH, related_snoc, Hrel.
Qed.

Lemma dispatch_same_calls (events : list Event) (b1 b2 : list Call) :
  related b1 b2 ->
  calls (snd (run net1 (dispatch self events) b1))
  = calls (snd (run net2 (dispatch self events) b2)).
Proof.
  revert b1 b2. induction events as [|event rest IH]; intros b1 b2 Hrel.
  - reflexivity.
  - cbn [dispatch]. rewrite !run_bind.
    assert (exists o1 o2,
      run net1
        match event with
        | AMessageEvent e =>
          match message e with
          | TextMessageContent _ => handle_message self e
          | OtherMessageContent _ => ret tt
          end
        | OtherEvent => ret tt
        end b1 = (Ok tt, o1) /\
      run net2
        match event with
        | AMessageEvent e =>
          match message e with
          | TextMessageContent _ => handle_message self e
          | OtherMessageContent _ => ret tt
          end
        | OtherEvent => ret tt
        end b2 = (Ok tt, o2) /\
      calls o1 = calls o2) as [o1 [o2 [-> [-> Hhead]]]].
    { destruct event as [e|]; [destruct (message e)|];
        try (exists [], []; repeat split; reflexivity).
      pose proof (process_message_same_calls e b1 b2 Hrel) as Hsame.
      destruct (process_message_catches net1 self e b1) as [o1 [H1 _]].
      destruct (process_message_catches net2 self e b2) as [o2 [H2 _]].
      unfold handle_message. rewrite H1, H2 in *.
      exists o1, o2. repeat split. exact Hsame. }
    assert (related (b1 ++ calls o1) (b2 ++ calls o2)) as Hrel'.
    { rewrite Hhead. apply related_app, Hrel. }
    specialize (IH _ _ Hrel').
    destruct (run net1 (dispatch self rest) (b1 ++ calls o1)) as [r1 out1].
    destruct (run net2 (dispatch self rest) (b2 ++ calls o2)) as [r2 out2].
    cbn [snd] in IH |- *. rewrite !calls_app, IH, Hhead. reflexivity.
Qed.

Lemma callback_same_calls (request : Request) (b1 b2 : list Call) :
  related b1 b2 ->
  calls (snd (run net1 (callback self request) b1))
  = calls (snd (run net2 (callback self request) b2)).
Proof.
  intros Hrel. rewrite !callback_run. unfold WebhookHandler_handle.
  destruct (signature_validate _ _ _); cbn; [|reflexivity].
  destruct (parse_events (data request)) as [events|e]; cbn.
  - pose proof (dispatch_same_calls events b1 b2 Hrel) as Hsame.
    destruct (dispatch_returns net1 self events b1) as [o1 H1].
    destruct (dispatch_returns net2 self events b2) as [o2 H2].
    rewrite H1, H2 in *. exact Hsame.
  - destruct (is_InvalidSignatureError e); reflexivity.
Qed.

End TwoRuns.

(** C9.  Two runs of the handler on platforms that differ at most in the
    member counts they return make the same calls: the same retrievals and
    the same deliveries, with the same targets and the same texts. *)
Theorem member_counts_do_not_matter (net1 net2 : Network) (self : LineBot)
    (event : MessageEvent) (before : list Call) :
  (forall client, differ_in_counts_only (net1 client) (net2 client)) ->
  calls (snd (run net1 (process_message self event) before))
  = calls (snd (run net2 (process_message self event) before)) /\
  deliveries (snd (run net1 (process_message self event) before))
  = deliveries (snd (run net2 (process_message self event) before)).
Proof.
  intros Hdiffer.
  destruct (Hdiffer (configuration self)) as [Hs [Hc [Hp [Hpush _]]]].
  assert (calls (snd (run net1 (process_message self event) before))
          = calls (snd (run net2 (process_message self event) before)))
    as Hcalls.
  { apply process_message_same_calls with (related := eq);
      try reflexivity; intros; subst; auto. }
  split; [exact Hcalls|]. unfold deliveries. rewrite Hcalls. reflexivity.
Qed.

(** C8.  The handler keeps nothing from one run to the next: on a platform
    that answers retrievals and pushes the same way again, handling the same
    event a second time makes the same calls as the first time, so an event
    that was forwarded is forwarded again, with the same push and the same
    reply. *)
Theorem replay_forwards_again (net : Network) (self : LineBot)
    (event : MessageEvent) (before : list Call) :
  answers_again (net (configuration self)) ->
  let first := snd (run net (process_message self event) before) in
  let second :=
    snd (run net (process_message self event) (before ++ calls first)) in
  calls second = calls first /\
  deliveries (first ++ second) = deliveries first ++ deliveries first /\
  forall push_request reply_request,
    deliveries first
      = [PushMessage push_request; ReplyMessage reply_request] ->
    deliveries second
      = [PushMessage push_request; ReplyMessage reply_request].
Proof.
  intros [Hs [Hc [Hp Hpush]]] first second.
  assert (calls second = calls first) as Hcalls.
  { apply process_message_same_calls with (related := fun _ _ => True);
      auto; intros.
    rewrite (Hc h1 h2).
    destruct (answer_group_member_count _ h2 g); simpl; auto. }
  split; [exact Hcalls|]. split.
  - unfold deliveries. rewrite calls_app, filter_app, Hcalls. reflexivity.
  - unfold deliveries. rewrite Hcalls. auto.
Qed.

(** Member counts do not matter to the endpoint either: on networks that
    differ at most in the member counts they return, a request leads to the
    same calls to the platform, whatever its events. *)
Theorem callback_member_counts_do_not_matter (net1 net2 : Network)
    (bot : LineBot) (request : Request) (before : list Call) :
  (forall client, differ_in_counts_only (net1 client) (net2 client)) ->
  calls (snd (run net1 (callback bot request) before))
  = calls (snd (run net2 (callback bot request) before)).
Proof.
  intros Hdiffer.
  destruct (Hdiffer (configuration bot)) as [Hs [Hc [Hp [Hpush _]]]].
  apply callback_same_calls with (related := eq);
    try reflexivity; intros; subst; auto.
Qed.

(** A webhook delivered twice is handled twice: on a platform that answers
    retrievals and pushes the same way again, the second delivery of a
    request makes the same calls as the first, deliveries included.  The
    endpoint remembers no message it has handled. *)
Theorem callback_replay (net : Network) (bot : LineBot) (request : Request)
    (before : list Call) :
  answers_again (net (configuration bot)) ->
  let first := snd (run net (callback bot request) before) in
  let second :=
    snd (run net (callback bot request) (before ++ calls first)) in
  calls second = calls first /\
  deliveries (first ++ second) = deliveries first ++ deliveries first.
Proof.
  intros [Hs [Hc [Hp Hpush]]] first second.
  assert (calls second = calls first) as Hcalls.
  { apply callback_same_calls with (related := fun _ _ => True);
      auto; intros.
    rewrite (Hc h1 h2).
    destruct (answer_group_member_count _ h2 g); simpl; auto. }
  split; [exact Hcalls|].
  unfold deliveries. rewrite calls_app, filter_app, Hcalls. reflexivity.
Qed.

End App.

(* ================================================================== *)
(** * The theorems at work on the sample data *)

Lemma lower_plain_spec : lower_spec lower_plain.
Proof. intros s _. reflexivity. Qed.

Lemma should_forward_message_spec_witness :
  should_forward_message lower_plain (bot sample_getenv)
    (u "【cashier notifier】XXX錯誤碼：500 video:abc") = Ok true /\
  should_forward_message lower_plain (bot sample_getenv)
    (u "【Cashier Notifier】no error code") = Ok false.
Proof.
  exact (proj2 (should_forward_message_spec lower_plain lower_plain_spec
                  sample_getenv)).
Defined.

Lemma process_message_source_guard_witness :
  run line_ok (process_message lower_plain sample_bot sample_user_event) []
  = (Ok tt, []).
Proof.
  apply (process_message_source_guard lower_plain line_ok sample_bot
           sample_user_event []).
  left. vm_compute. reflexivity.
Defined.

Lemma process_message_filter_guard_witness :
  run line_ok (process_message lower_plain sample_bot sample_unmatched_event) []
  = (Ok tt, []).
Proof.
  apply (process_message_filter_guard lower_plain line_ok sample_bot
           sample_unmatched_event []
           (u "【Cashier Notifier】no error code")).
  - exists (u "Csource"), (Some (u "Uamy")). split; reflexivity.
  - reflexivity.
  - vm_compute. reflexivity.
Defined.

Lemma no_partial_forward_witness :
  deliveries
    (snd (run line_count_fails
            (process_message lower_plain sample_bot sample_event) [])) = [].
Proof.
  eapply (no_partial_forward lower_plain line_count_fails sample_bot
            sample_event []).
  - apply surjective_pairing.
  - vm_compute. reflexivity.
Defined.

Lemma forward_is_push_then_reply_witness :
  exists forward_text reply_text,
    deliveries
      (snd (run line_ok (process_message lower_plain sample_bot sample_event) []))
    = [ PushMessage {| to := TARGET_GROUP_ID (config sample_bot);
                       messages := [ {| text := forward_text |} ] |};
        ReplyMessage {| reply_to := reply_token sample_event;
                        reply_messages := [ {| text := reply_text |} ] |} ].
Proof.
  eapply (forward_is_push_then_reply lower_plain line_ok sample_bot
            sample_event []).
  - exists (u "Csource"), (Some (u "Uamy")). split; reflexivity.
  - exists sample_text. split; [reflexivity | vm_compute; reflexivity].
  - discriminate.
  - discriminate.
  - apply surjective_pairing.
  - vm_compute. reflexivity.
  - vm_compute. reflexivity.
Defined.

(** C2, as stated, fails when the push raises: the event passes both guards
    and every metadata retrieval succeeds, and the run makes one push and no
    reply. *)
Lemma push_failure_leaves_no_reply :
  passes_source_guard sample_bot sample_event /\
  passes_filter_guard lower_plain sample_bot sample_event /\
  existsb failed_retrieval
    (snd (run line_push_fails
            (process_message lower_plain sample_bot sample_event) []))
  = false /\
  deliveries
    (snd (run line_push_fails
            (process_message lower_plain sample_bot sample_event) []))
  = [PushMessage sample_push_request].
Proof.
  split; [|split; [|split]].
  - exists (u "Csource"), (Some (u "Uamy")). split; reflexivity.
  - exists sample_text. split; [reflexivity | vm_compute; reflexivity].
  - vm_compute. reflexivity.
  - vm_compute. reflexivity.
Qed.




Lemma replay_forwards_again_witness :
  calls (snd (run line_ok (process_message lower_plain sample_bot sample_event)
                ([] ++ calls (snd (run line_ok
                   (process_message lower_plain sample_bot sample_event) [])))))
  = calls (snd (run line_ok
                  (process_message lower_plain sample_bot sample_event) [])) /\
  deliveries
    (snd (run line_ok (process_message lower_plain sample_bot sample_event) [])
     ++ snd (run line_ok (process_message lower_plain sample_bot sample_event)
               ([] ++ calls (snd (run line_ok
                  (process_message lower_plain sample_bot sample_event) [])))))
  = [ PushMessage sample_push_request; ReplyMessage sample_reply_request;
      PushMessage sample_push_request; ReplyMessage sample_reply_request ].
Proof.
  destruct (replay_forwards_again lower_plain line_ok sample_bot sample_event
              [])
    as [Hcalls [Hboth _]].
  - repeat split; intros; reflexivity.
  - split; [exact Hcalls|].
    rewrite Hboth. vm_compute. reflexivity.
Defined.

Lemma member_counts_do_not_matter_witness :
  deliveries
    (snd (run (fun _ => line_with_counts 7)
            (process_message lower_plain sample_bot sample_event) []))
  = deliveries
      (snd (run (fun _ => line_with_counts 9000)
              (process_message lower_plain sample_bot sample_event) [])).
Proof.
  apply (member_counts_do_not_matter lower_plain
           (fun _ => line_with_counts 7) (fun _ => line_with_counts 9000)
           sample_bot sample_event []).
  intros client. repeat split; intros; reflexivity.
Defined.

(** C10, as stated, fails for a [BotConfig] constructed with a start
    keyword of its own: the argument is kept. *)
Lemma start_keyword_argument_is_kept :
  START_KEYWORD
    (BotConfig__init__ sample_getenv
       {| arg_ACCESS_TOKEN := None; arg_CHANNEL_SECRET := None;
          arg_SOURCE_GROUP_ID := None; arg_TARGET_GROUP_ID := None;
          arg_START_KEYWORD := Some (u "[alert]");
          arg_OTHER_KEYWORDS := None |})
  = u "[alert]" /\
  str_eqb (u "[alert]") (u "【Cashier Notifier】") = false.
Proof.
  split; [reflexivity | vm_compute; reflexivity].
Qed.

Lemma create_message_text_unknown_type_witness :
  create_message_text (u "notice") (u "Amy") (u "group Csource") sample_text
  = Raise (Exn KeyError (repr (u "notice"))) /\
  repr (u "notice") = u "'notice'".
Proof.
  split; [|vm_compute; reflexivity].
  apply (create_message_text_unknown_type (u "notice") (u "Amy")
           (u "group Csource") sample_text).
  - vm_compute. reflexivity.
  - intros H. vm_compute in H. discriminate H.
  - intros H. vm_compute in H. discriminate H.
Defined.

Lemma should_forward_message_configured_witness :
  exists b,
    should_forward_message lower_plain alert_bot
      (u "[ALERT] 錯誤碼：7 Video:x") = Ok b /\
    (b = true <->
     starts_with_ci lower_plain (u "[ALERT] 錯誤碼：7 Video:x")
       (START_KEYWORD (config alert_bot)) /\
     forall keyword,
       In keyword [u "錯誤碼："; u "video:"] ->
       contains_ci lower_plain (u "[ALERT] 錯誤碼：7 Video:x") keyword).
Proof.
  apply (should_forward_message_configured lower_plain alert_bot
           [u "錯誤碼："; u "video:"] (u "[ALERT] 錯誤碼：7 Video:x")).
  reflexivity.
Defined.

Lemma should_forward_message_ignores_ascii_case_witness :
  should_forward_message lower_plain sample_bot
    (u "【CASHIER notifier】錯誤碼：7 VIDEO:x")
  = should_forward_message lower_plain sample_bot
      (u "【cashier NOTIFIER】錯誤碼：7 video:X").
Proof.
  apply (should_forward_message_ignores_ascii_case lower_plain sample_bot
           (u "【CASHIER notifier】錯誤碼：7 VIDEO:x")
           (u "【cashier NOTIFIER】錯誤碼：7 video:X")).
  - exact lower_plain_spec.
  - vm_compute. reflexivity.
  - vm_compute. reflexivity.
  - vm_compute. reflexivity.
Defined.

Lemma unset_source_group_forwards_nothing_witness :
  fst (run line_ok (process_message lower_plain unconfigured_bot sample_event) [])
  = Ok tt /\
  calls (snd (run line_ok
                (process_message lower_plain unconfigured_bot sample_event) []))
  = [].
Proof.
  apply (unset_source_group_forwards_nothing lower_plain line_ok
           unconfigured_bot sample_event []).
  reflexivity.
Defined.

Lemma success_record_quotes_fifty_witness :
  exists t,
    message sample_event = TextMessageContent t /\
    u "訊息轉發成功: 【cashier notifier】XXX錯誤碼：500 video:abc..."
    = u "訊息轉發成功: " ++ firstn 50 t ++ u "..." /\
    (List.length t <= 50 ->
     u "訊息轉發成功: 【cashier notifier】XXX錯誤碼：500 video:abc..."
     = u "訊息轉發成功: " ++ t ++ u "...")%nat /\
    (List.length
       (u "訊息轉發成功: 【cashier notifier】XXX錯誤碼：500 video:abc...")
     <= 61)%nat.
Proof.
  apply (success_record_quotes_fifty lower_plain line_ok sample_bot
           sample_event []).
  vm_compute. do 7 right. left. reflexivity.
Defined.

Lemma failed_reply_leaves_the_push_witness :
  exists push_request,
    In (Api (PushMessage push_request) (Ok Sent))
       (snd (run line_reply_fails
               (process_message lower_plain sample_bot sample_event) [])) /\
    deliveries
      (snd (run line_reply_fails
              (process_message lower_plain sample_bot sample_event) []))
    = [PushMessage push_request; ReplyMessage sample_reply_request] /\
    In (Log ERROR
          (u "處理訊息失敗: "
           ++ exn_str (Exn ApiException (u "(400) Invalid reply token"))))
       (snd (run line_reply_fails
               (process_message lower_plain sample_bot sample_event) [])).
Proof.
  apply (failed_reply_leaves_the_push lower_plain line_reply_fails sample_bot
           sample_event [] sample_reply_request
           (Exn ApiException (u "(400) Invalid reply token"))).
  vm_compute. do 6 right. left. reflexivity.
Defined.

Lemma callback_undecodable_body_witness :
  run line_ok
    (callback lower_plain (fun _ _ _ => true)
       (fun _ => Raise (Exn ValueError (u "Expecting value")))
       sample_bot sample_request) []
  = (Ok (Aborted 500),
     [ Log INFO (u "Received webhook");
       Log DEBUG (u "Request body: " ++ data sample_request);
       Log ERROR (u "Webhook處理失敗: "
                  ++ exn_str (Exn ValueError (u "Expecting value"))) ]).
Proof.
  exact (callback_undecodable_body lower_plain (fun _ _ _ => true)
           (fun _ => Raise (Exn ValueError (u "Expecting value")))
           line_ok sample_bot sample_request []
           (Exn ValueError (u "Expecting value")) eq_refl eq_refl).
Defined.

Lemma callback_without_text_messages_witness :
  run line_ok
    (callback lower_plain (fun _ _ _ => true)
       (fun _ =>
          Ok [ OtherEvent;
               AMessageEvent
                 {| source := GroupSource (u "Csource") (Some (u "Uamy"));
                    reply_token := Some (u "r-token");
                    message := OtherMessageContent (u "ImageMessageContent") |} ])
       sample_bot sample_request) []
  = (Ok (Returned (u "OK")),
     [ Log INFO (u "Received webhook");
       Log DEBUG (u "Request body: " ++ data sample_request) ]).
Proof.
  exact (callback_without_text_messages lower_plain (fun _ _ _ => true)
           (fun _ =>
              Ok [ OtherEvent;
                   AMessageEvent
                     {| source := GroupSource (u "Csource") (Some (u "Uamy"));
                        reply_token := Some (u "r-token");
                        message := OtherMessageContent (u "ImageMessageContent") |} ])
           line_ok sample_bot sample_request [] _ eq_refl eq_refl eq_refl).
Defined.

Lemma callback_member_counts_do_not_matter_witness :
  calls
    (snd (run (fun _ => line_with_counts 7)
            (callback lower_plain (fun _ _ _ => true)
               (fun _ => Ok [AMessageEvent sample_event; OtherEvent])
               sample_bot sample_request) []))
  = calls
      (snd (run (fun _ => line_with_counts 9000)
              (callback lower_plain (fun _ _ _ => true)
                 (fun _ => Ok [AMessageEvent sample_event; OtherEvent])
                 sample_bot sample_request) [])).
Proof.
  apply (callback_member_counts_do_not_matter lower_plain (fun _ _ _ => true)
           (fun _ => Ok [AMessageEvent sample_event; OtherEvent])
           (fun _ => line_with_counts 7) (fun _ => line_with_counts 9000)
           sample_bot sample_request []).
  intros client. repeat split; intros; reflexivity.
Defined.

Lemma callback_replay_witness :
  deliveries
    (snd (run line_ok
            (callback lower_plain (fun _ _ _ => true)
               (fun _ => Ok [AMessageEvent sample_event; OtherEvent])
               sample_bot sample_request) [])
     ++ snd (run line_ok
               (callback lower_plain (fun _ _ _ => true)
                  (fun _ => Ok [AMessageEvent sample_event; OtherEvent])
                  sample_bot sample_request)
               ([] ++ calls (snd (run line_ok
                  (callback lower_plain (fun _ _ _ => true)
                     (fun _ => Ok [AMessageEvent sample_event; OtherEvent])
                     sample_bot sample_request) [])))))
  = [ PushMessage sample_push_request; ReplyMessage sample_reply_request;
      PushMessage sample_push_request; ReplyMessage sample_reply_request ].
Proof.
  destruct (callback_replay lower_plain (fun _ _ _ => true)
              (fun _ => Ok [AMessageEvent sample_event; OtherEvent])
              line_ok sample_bot sample_request [])
    as [_ Hboth].
  - repeat split; intros; reflexivity.
  - rewrite Hboth. vm_compute. reflexivity.
Defined.

Lemma missing_reply_token_leaves_the_push_witness :
  fst (run line_ok
         (process_message lower_plain sample_bot sample_event_without_token) [])
  = Ok tt /\
  (exists forward_text,
     deliveries
       (snd (run line_ok
               (process_message lower_plain sample_bot
                  sample_event_without_token) []))
     = [ PushMessage {| to := TARGET_GROUP_ID (config sample_bot);
                        messages := [ {| text := forward_text |} ] |} ]) /\
  forall msg,
    ~ In (Log INFO msg)
         (snd (run line_ok
                 (process_message lower_plain sample_bot
                    sample_event_without_token) [])).
Proof.
  apply (missing_reply_token_leaves_the_push lower_plain line_ok sample_bot
           sample_event_without_token []).
  - exists (u "Csource"), (Some (u "Uamy")). split; reflexivity.
  - exists sample_text. split; [reflexivity | vm_compute; reflexivity].
  - discriminate.
  - reflexivity.
  - apply surjective_pairing.
  - vm_compute. reflexivity.
Defined.
